(** * The command-error dispatcher of [bot/cogs/error_handler.py]

    A shallow embedding of [ErrorHandler.on_command_error] and the
    properties of its dispatch table.

    The handler is asynchronous glue over the chat framework: it reads the
    invocation context and the raised error, and talks to the outside world
    through [ctx.send], [ctx.invoke] and the module logger.  The embedding
    keeps these calls as events of a trace, in the order the handler makes
    them, and threads the context (the handler sets an attribute on it)
    through a small state-and-exception monad.

    - [ctx.send], the logger and [response.json()] are taken to complete.
    - [ctx.invoke] runs the code of another command; the handler itself
      guards one of its two calls with [contextlib.suppress], so the way an
      invocation ends (a value, or an exception) is an input of the run.
      What the invoked command sends or logs is that command's, not the
      handler's, and is not part of the trace.
    - The classes of [discord.ext.commands] are an enumeration with their
      bases; classes an application derives from them are covered.
    - [bot.api], [bot.constants] and the command registry are outside this
      file: the response is a record of what the handler reads from it, and
      [Channels.verification], [bot.get_command] and the outcome of
      [ctx.invoke] are variables of the development. *)

From Stdlib Require Import ZArith List String Ascii Bool Lia DecimalString.
Import ListNotations.

Local Open Scope string_scope.
Local Open Scope Z_scope.

(** ** Python text rendering *)

Module Py.

(** The line feed written [\n] in the source. *)
Definition nl : string := String (ascii_of_nat 10) EmptyString.

(** [sep.join(l)]. *)
Fixpoint join (sep : string) (l : list string) : string :=
  match l with
  | [] => EmptyString
  | [x] => x
  | x :: rest => x ++ sep ++ join sep rest
  end.

(** [repr] of a [str].  A string of the model is a sequence of characters
    with code points below 256, and [repr_str] follows the interpreter on
    them: the delimiter is the single quote, or the double quote (code 34)
    when the text has a single quote and no double quote; the delimiter and
    the backslash are escaped with a backslash; tab, line feed and carriage
    return are written [\t], [\n] and [\r]; every other character that
    [str.isprintable] refuses (the controls below 32, 127 to 160, and 173)
    is written [\xNN] with two lower-case hexadecimal digits; the rest is
    copied. *)
Definition squote : ascii := ascii_of_nat 39.
Definition dquote : ascii := ascii_of_nat 34.
Definition backslash : ascii := ascii_of_nat 92.

Fixpoint contains (c : ascii) (s : string) : bool :=
  match s with
  | EmptyString => false
  | String a rest => Ascii.eqb a c || contains c rest
  end.

Definition hex_digit (n : nat) : ascii :=
  match get n "0123456789abcdef" with
  | Some d => d
  | None => "0"%char
  end.

Definition hex_escape (c : ascii) : string :=
  let n := nat_of_ascii c in
  String backslash
    (String "x" (String (hex_digit (n / 16)) (String (hex_digit (n mod 16))
       EmptyString))).

(** [str.isprintable] on one character below 256. *)
Definition printable (c : ascii) : bool :=
  let n := nat_of_ascii c in
  ((32 <=? n) && (n <? 127) || (161 <=? n) && negb (n =? 173))%nat.

Definition escape_char (quote c : ascii) : string :=
  let n := nat_of_ascii c in
  if Ascii.eqb c quote || Ascii.eqb c backslash
  then String backslash (String c EmptyString)
  else if (n =? 9)%nat then String backslash "t"
  else if (n =? 10)%nat then String backslash "n"
  else if (n =? 13)%nat then String backslash "r"
  else if printable c then String c EmptyString
  else hex_escape c.

Fixpoint escape (quote : ascii) (s : string) : string :=
  match s with
  | EmptyString => EmptyString
  | String c rest => escape_char quote c ++ escape quote rest
  end.

Definition repr_quote (s : string) : ascii :=
  if contains squote s && negb (contains dquote s) then dquote else squote.

Definition repr_str (s : string) : string :=
  let quote := repr_quote s in
  String quote (escape quote s ++ String quote EmptyString).

(** A character that [repr] copies and that is not a quote: the letters,
    digits and underscores of a permission name are such. *)
Definition plain_char (c : ascii) : bool :=
  printable c && negb (Ascii.eqb c squote) && negb (Ascii.eqb c dquote)
  && negb (Ascii.eqb c backslash).

Fixpoint plain (s : string) : bool :=
  match s with
  | EmptyString => true
  | String c rest => plain_char c && plain rest
  end.

(** [str] of a list of [str], what [{e.missing_perms}] interpolates. *)
Definition str_list (l : list string) : string :=
  "[" ++ join ", " (map repr_str l) ++ "]".

(** [str] of an [int]. *)
Definition str_int (z : Z) : string := NilZero.string_of_int (Z.to_int z).

End Py.

(** ** The error taxonomy of [discord.ext.commands]

    The handler classifies with [isinstance] against classes the framework
    defines.  [ErrorKind] lists them, [base] is the class each one derives
    from, and an error's class is either one of them or a class of the
    application derived from one of them. *)

Inductive ErrorKind : Set :=
| CommandError
| ConversionError
| UserInputError
| MissingRequiredArgument
| TooManyArguments
| BadArgument
| BadUnionArgument
| CommandNotFound
| CheckFailure
| NoPrivateMessage
| NotOwner
| MissingPermissions
| BotMissingPermissions
| DisabledCommand
| CommandInvokeError
| CommandOnCooldown.

Definition ErrorKind_eq_dec (a b : ErrorKind) : {a = b} + {a <> b}.
Proof. decide equality. Defined.

Definition kind_eqb (a b : ErrorKind) : bool :=
  if ErrorKind_eq_dec a b then true else false.

Definition base (k : ErrorKind) : option ErrorKind :=
  match k with
  | CommandError => None
  | ConversionError | UserInputError | CommandNotFound | CheckFailure
  | DisabledCommand | CommandInvokeError | CommandOnCooldown => Some CommandError
  | MissingRequiredArgument | TooManyArguments | BadArgument
  | BadUnionArgument => Some UserInputError
  | NoPrivateMessage | NotOwner | MissingPermissions
  | BotMissingPermissions => Some CheckFailure
  end.

(** [issubclass], walking the chain of bases (it is at most two long). *)
Fixpoint subclass_upto (fuel : nat) (k k' : ErrorKind) : bool :=
  kind_eqb k k' ||
  match fuel, base k with
  | S f, Some b => subclass_upto f b k'
  | _, _ => false
  end.

Definition issubclass (k k' : ErrorKind) : bool := subclass_upto 3 k k'.

Definition kind_name (k : ErrorKind) : string :=
  match k with
  | CommandError => "CommandError"
  | ConversionError => "ConversionError"
  | UserInputError => "UserInputError"
  | MissingRequiredArgument => "MissingRequiredArgument"
  | TooManyArguments => "TooManyArguments"
  | BadArgument => "BadArgument"
  | BadUnionArgument => "BadUnionArgument"
  | CommandNotFound => "CommandNotFound"
  | CheckFailure => "CheckFailure"
  | NoPrivateMessage => "NoPrivateMessage"
  | NotOwner => "NotOwner"
  | MissingPermissions => "MissingPermissions"
  | BotMissingPermissions => "BotMissingPermissions"
  | DisabledCommand => "DisabledCommand"
  | CommandInvokeError => "CommandInvokeError"
  | CommandOnCooldown => "CommandOnCooldown"
  end.

(** The class of an error value: a class of the framework, or a class
    derived (in one or more steps) from one. *)
Inductive ErrClass : Set :=
| Framework (k : ErrorKind)
| Derived (name : string) (parent : ErrClass).

(** The kind of a class: the framework class it is, or derives from. *)
Fixpoint kind_of (c : ErrClass) : ErrorKind :=
  match c with
  | Framework k => k
  | Derived _ p => kind_of p
  end.

(** [cls.__name__]. *)
Definition class_name (c : ErrClass) : string :=
  match c with
  | Framework k => kind_name k
  | Derived n _ => n
  end.

(** ** Values the handler reads *)

(** The response carried by a [ResponseCodeError].  [bot.api] is not part
    of this file; the handler reads three things from the response: the
    attribute [status], the attribute [code], and the decoded body that
    [json()] returns ([json] holds its [repr], which is what [%r] logs). *)
Record Response : Set := mkResponse {
  status : Z;
  code : Z;
  json : string
}.

(** Exceptions other than command errors: the [ResponseCodeError] of
    [bot.api], and any other exception, known by its class name and text. *)
Inductive Exception : Set :=
| ResponseCodeError (response : Response)
| OtherException (name : string) (text : string).

(** A command error [e].  [err_text] is [str(e)].  [missing_perms] is read
    only for the two permission kinds and [original] only for
    [CommandInvokeError], the kinds that define them. *)
Record Error : Set := mkError {
  err_class : ErrClass;
  err_text : string;
  missing_perms : list string;
  original : Exception
}.

Definition kind (e : Error) : ErrorKind := kind_of (err_class e).

(** [isinstance(e, k)] for a framework class [k]. *)
Definition isinstance (e : Error) (k : ErrorKind) : bool :=
  issubclass (kind e) k.

(** [isinstance(x, ResponseCodeError)]. *)
Definition is_ResponseCodeError (x : Exception) : bool :=
  match x with
  | ResponseCodeError _ => true
  | OtherException _ _ => false
  end.

(** What leaves a call as an exception. *)
Inductive Raised : Set :=
| RaisedError (e : Error)
| RaisedException (x : Exception).

(** A command object: its name, the group it belongs to, and whether it has
    the attribute [on_error] (a local error handler). *)
#[warnings="-register-all"]
Inductive Command : Set :=
| mkCommand (name : string) (parent : option Command) (on_error : bool).

Definition cmd_name (c : Command) : string :=
  match c with mkCommand n _ _ => n end.

Definition cmd_parent (c : Command) : option Command :=
  match c with mkCommand _ p _ => p end.

(** [hasattr(command, "on_error")]; [None] has no such attribute. *)
Definition hasattr_on_error (command : option Command) : bool :=
  match command with
  | Some (mkCommand _ _ h) => h
  | None => false
  end.

(** [str(command)] for a command is its qualified name: the names of the
    enclosing groups, outermost first, then its own. *)
Fixpoint qualified_name (c : Command) : string :=
  match c with
  | mkCommand n None _ => n
  | mkCommand n (Some p) _ => qualified_name p ++ " " ++ n
  end.

Definition str_command (command : option Command) : string :=
  match command with
  | Some c => qualified_name c
  | None => "None"
  end.

(** The invocation context.  [invoked_from_error_handler] is the attribute
    the handler sets on the context: [None] while the context does not have
    it. *)
Record Ctx : Set := mkCtx {
  command : option Command;
  channel_id : Z;
  author : string;
  invoked_with : string;
  invoked_from_error_handler : option bool
}.

(** [hasattr(ctx, "invoked_from_error_handler")]. *)
Definition hasattr_invoked_from_error_handler (ctx : Ctx) : bool :=
  match invoked_from_error_handler ctx with
  | Some _ => true
  | None => false
  end.

Definition set_invoked_from_error_handler (ctx : Ctx) (b : bool) : Ctx :=
  {| command := command ctx;
     channel_id := channel_id ctx;
     author := author ctx;
     invoked_with := invoked_with ctx;
     invoked_from_error_handler := Some b |}.

(** Values returned by a command callback. *)
Inductive PyValue : Set :=
| PyNone
| PyObject (repr : string).

(** ** Effects *)

Inductive Level : Set := DEBUG | INFO | WARNING.

(** The observable actions of the handler, in the order they happen.
    [Invoke] records the context as it is when [ctx.invoke] is called, the
    command object passed, and the positional and keyword arguments. *)
Inductive Event : Set :=
| Send (content : string)
| Log (level : Level) (message : string)
| Invoke (ctx : Ctx) (cmd : option Command) (args : list string)
    (kwargs : list (string * string)).

(** How a call of [ctx.invoke] ends. *)
Inductive InvokeResult : Set :=
| Returns (v : PyValue)
| Raises (r : Raised).

Record State : Set := mkState {
  st_ctx : Ctx;
  st_trace : list Event
}.

Inductive Result (A : Type) : Type :=
| Value (a : A)
| Raise (r : Raised).

Arguments Value {A} a.
Arguments Raise {A} r.

(** Computations of the handler: they read and update the context, extend
    the trace, and end with a value or a raised exception. *)
Definition M (A : Type) : Type := State -> Result A * State.

Definition ret {A : Type} (a : A) : M A := fun s => (Value a, s).

Definition bind {A B : Type} (m : M A) (k : A -> M B) : M B :=
  fun s =>
    match m s with
    | (Value a, s') => k a s'
    | (Raise r, s') => (Raise r, s')
    end.

Definition raise {A : Type} (r : Raised) : M A := fun s => (Raise r, s).

Definition emit (ev : Event) : M unit :=
  fun s => (Value tt, {| st_ctx := st_ctx s; st_trace := st_trace s ++ [ev] |}).

Definition get_ctx : M Ctx := fun s => (Value (st_ctx s), s).

Definition put_ctx (ctx : Ctx) : M unit :=
  fun s => (Value tt, {| st_ctx := ctx; st_trace := st_trace s |}).

(** [with contextlib.suppress(...)]: an exception the predicate accepts ends
    the block normally, any other propagates. *)
Definition suppress {A : Type} (p : Raised -> bool) (m : M A) : M (option A) :=
  fun s =>
    match m s with
    | (Value a, s') => (Value (Some a), s')
    | (Raise r, s') => if p r then (Value None, s') else (Raise r, s')
    end.

Declare Scope py_scope.
Delimit Scope py_scope with py.

Notation "x <- m ;; k" := (bind m (fun x => k))
  (at level 100, m at next level, right associativity) : py_scope.
Notation "m ;;; k" := (bind m (fun _ => k))
  (at level 100, right associativity) : py_scope.

Local Open Scope py_scope.

(** ** The handler *)

Section ErrorHandler.

(** [self.bot.get_command]: the command registered under a name, if any. *)
Variable get_command : string -> option Command.

(** [Channels.verification], a constant of [bot.constants]. *)
Variable verification : Z.

(** The outcome of [ctx.invoke(cmd, *args, **kwargs)] on a context. *)
Variable invoke_result :
  Ctx -> option Command -> list string -> list (string * string) -> InvokeResult.

Definition ctx_send (content : string) : M unit := emit (Send content).

Definition log (level : Level) (message : string) : M unit :=
  emit (Log level message).

Definition ctx_invoke (cmd : option Command) (args : list string)
    (kwargs : list (string * string)) : M PyValue :=
  ctx <- get_ctx ;;
  emit (Invoke ctx cmd args kwargs) ;;;
  match invoke_result ctx cmd args kwargs with
  | Returns v => ret v
  | Raises r => raise r
  end.

(** The tuple [help_command] of lines 38-43: the help command, followed by
    the names to show help for. *)
Definition help_command (ctx : Ctx) : option Command * list string :=
  let parent :=
    match command ctx with
    | Some c => cmd_parent c
    | None => None
    end in
  match parent, command ctx with
  | Some p, Some c => (get_command "help", [cmd_name p; cmd_name c])
  | _, Some c => (get_command "help", [cmd_name c])
  | _, None => (get_command "help", [])
  end.

Definition suppressed (r : Raised) : bool :=
  match r with
  | RaisedException x => is_ResponseCodeError x
  | RaisedError _ => false
  end.

(** The branch on the status of a [ResponseCodeError], lines 74-86. *)
Definition on_response_code_error (r : Response) : M PyValue :=
  if status r =? 404 then
    ctx_send "There does not seem to be anything matching your query." ;;;
    ret PyNone
  else if status r =? 400 then
    let content := json r in
    log DEBUG ("API gave bad request on command. Response: " ++ content ++ ".") ;;;
    ctx_send "According to the API, your request is malformed." ;;;
    ret PyNone
  else if (500 <=? status r) && (status r <? 600) then
    ctx_send "Sorry, there seems to be an internal issue with the API." ;;;
    ret PyNone
  else
    ctx_send ("Got an unexpected status code from the " ++
              "API (`" ++ Py.str_int (code r) ++ "`).") ;;;
    ret PyNone.

Definition on_command_error (e : Error) : M PyValue :=
  ctx <- get_ctx ;;
  let command := command ctx in
  let '(help, names) := help_command ctx in
  if hasattr_on_error command then
    log DEBUG ("Command " ++ str_command command ++
               " has a local error handler, ignoring.") ;;;
    ret PyNone
  else if isinstance e CommandNotFound
          && negb (hasattr_invoked_from_error_handler ctx) then
    if negb (channel_id ctx =? verification) then
      let tags_get_command := get_command "tags get" in
      put_ctx (set_invoked_from_error_handler ctx true) ;;;
      r <- suppress suppressed
             (ctx_invoke tags_get_command [] [("tag_name", invoked_with ctx)]) ;;
      match r with
      | Some v => ret v
      | None => ret PyNone
      end
    else ret PyNone
  else if isinstance e BadArgument then
    ctx_send ("Bad argument: " ++ err_text e ++ Py.nl) ;;;
    ctx_invoke help names [] ;;;
    ret PyNone
  else if isinstance e UserInputError then
    ctx_send "Something about your input seems off. Check the arguments:" ;;;
    ctx_invoke help names [] ;;;
    ret PyNone
  else if isinstance e NoPrivateMessage then
    ctx_send "Sorry, this command can't be used in a private message!" ;;;
    ret PyNone
  else if isinstance e BotMissingPermissions then
    ctx_send "Sorry, it looks like I don't have the permissions I need to do that." ;;;
    log WARNING ("The bot is missing permissions to execute command " ++
                 str_command command ++ ": " ++
                 Py.str_list (missing_perms e)) ;;;
    ret PyNone
  else if isinstance e MissingPermissions then
    log DEBUG (author ctx ++ " is missing permissions to invoke command " ++
               str_command command ++ ": " ++ Py.str_list (missing_perms e)) ;;;
    ret PyNone
  else if isinstance e CheckFailure || isinstance e CommandOnCooldown
          || isinstance e DisabledCommand then
    log DEBUG ("Command " ++ str_command command ++ " invoked by " ++
               author ctx ++ " with error " ++ class_name (err_class e) ++
               ": " ++ err_text e) ;;;
    ret PyNone
  else if isinstance e CommandInvokeError then
    match original e with
    | ResponseCodeError r => on_response_code_error r
    | OtherException _ _ =>
        ctx_send ("Sorry, an unexpected error occurred. Please let us know!" ++
                  Py.nl ++ Py.nl ++ "```" ++ err_text e ++ "```") ;;;
        raise (RaisedException (original e))
    end
  else raise (RaisedError e).

(** One run of the handler on a context, from an empty trace. *)
Definition run (ctx : Ctx) (e : Error) : Result PyValue * State :=
  on_command_error e {| st_ctx := ctx; st_trace := [] |}.

Definition outcome (ctx : Ctx) (e : Error) : Result PyValue := fst (run ctx e).
Definition trace (ctx : Ctx) (e : Error) : list Event := st_trace (snd (run ctx e)).
Definition final_ctx (ctx : Ctx) (e : Error) : Ctx := st_ctx (snd (run ctx e)).

End ErrorHandler.

Arguments on_command_error get_command verification invoke_result e _ : simpl never.

(** ** Counting the effects of a run *)

Definition is_send (ev : Event) : bool :=
  match ev with Send _ => true | _ => false end.

Definition is_log (ev : Event) : bool :=
  match ev with Log _ _ => true | _ => false end.

Definition is_invoke (ev : Event) : bool :=
  match ev with Invoke _ _ _ _ => true | _ => false end.

Definition count (p : Event -> bool) (t : list Event) : nat :=
  List.length (List.filter p t).

(** The number of exceptions that leave a run: one if it raised. *)
Definition raised_count {A : Type} (r : Result A) : nat :=
  match r with
  | Raise _ => 1%nat
  | Value _ => 0%nat
  end.

(** No condition of the chain of lines 49-72 holds for the error, so that
    the final [else] is taken. *)
Definition no_branch_matches (ctx : Ctx) (e : Error) : bool :=
  negb (isinstance e CommandNotFound
        && negb (hasattr_invoked_from_error_handler ctx))
  && negb (isinstance e BadArgument)
  && negb (isinstance e UserInputError)
  && negb (isinstance e NoPrivateMessage)
  && negb (isinstance e BotMissingPermissions)
  && negb (isinstance e MissingPermissions)
  && negb (isinstance e CheckFailure || isinstance e CommandOnCooldown
           || isinstance e DisabledCommand)
  && negb (isinstance e CommandInvokeError).

(** ** Concrete contexts, errors and collaborators *)

Module Sample.

Definition help : Command := mkCommand "help" None false.
Definition tags : Command := mkCommand "tags" None false.
Definition tags_get : Command := mkCommand "get" (Some tags) false.

(** A command with a local error handler, and a subcommand without one. *)
Definition ban : Command := mkCommand "ban" None true.
Definition site : Command := mkCommand "site" None false.
Definition site_faq : Command := mkCommand "faq" (Some site) false.

Definition get_command (name : string) : option Command :=
  if String.eqb name "help" then Some help
  else if String.eqb name "tags" then Some tags
  else if String.eqb name "tags get" then Some tags_get
  else None.

Definition verification : Z := 352442727016693763.
Definition bot_commands : Z := 267659945086812160.

Definition not_found : Response :=
  {| status := 404; code := 404; json := "{}" |}.
Definition bad_request : Response :=
  {| status := 400; code := 400; json := "{'title': ['too long']}" |}.
Definition teapot : Response :=
  {| status := 418; code := 200; json := "{}" |}.

(** [ctx.invoke] that completes, and one where the API answers 404. *)
Definition invoke_returns (_ : Ctx) (_ : option Command) (_ : list string)
    (_ : list (string * string)) : InvokeResult := Returns PyNone.
Definition invoke_api_404 (_ : Ctx) (_ : option Command) (_ : list string)
    (_ : list (string * string)) : InvokeResult :=
  Raises (RaisedException (ResponseCodeError not_found)).

Definition ctx_of (c : option Command) (channel : Z) (word : string) : Ctx :=
  {| command := c; channel_id := channel; author := "lemon#0001";
     invoked_with := word; invoked_from_error_handler := None |}.

Definition error_of (k : ErrorKind) (text : string) : Error :=
  {| err_class := Framework k; err_text := text; missing_perms := [];
     original := OtherException "Exception" EmptyString |}.

Definition missing (k : ErrorKind) (perms : list string) : Error :=
  {| err_class := Framework k; err_text := "missing permissions";
     missing_perms := perms;
     original := OtherException "Exception" EmptyString |}.

Definition invoke_error (x : Exception) : Error :=
  {| err_class := Framework CommandInvokeError;
     err_text := "Command raised an exception";
     missing_perms := []; original := x |}.

(** Contexts: an unresolved word in an ordinary channel and in the
    verification channel; the command with a local handler (in both
    channels); a subcommand and a top-level command without one. *)
Definition unknown_ctx : Ctx := ctx_of None bot_commands "python".
Definition verify_ctx : Ctx := ctx_of None verification "accept".
Definition ban_ctx : Ctx := ctx_of (Some ban) bot_commands "ban".
Definition ban_verify_ctx : Ctx := ctx_of (Some ban) verification "ban".
Definition faq_ctx : Ctx := ctx_of (Some site_faq) bot_commands "faq".
Definition site_ctx : Ctx := ctx_of (Some site) bot_commands "site".

Definition e_not_found : Error :=
  error_of CommandNotFound "Command python is not found".
Definition e_bad_argument : Error :=
  error_of BadArgument "Converting to int failed for parameter count.".
Definition e_conversion : Error :=
  error_of ConversionError "conversion failed".
Definition e_bot_missing : Error :=
  missing BotMissingPermissions ["manage_messages"; "embed_links"].
Definition e_user_missing : Error :=
  missing MissingPermissions ["kick_members"].
Definition e_api_404 : Error := invoke_error (ResponseCodeError not_found).
Definition e_api_teapot : Error := invoke_error (ResponseCodeError teapot).
Definition e_value_error : Error :=
  invoke_error (OtherException "ValueError" "invalid literal for int()").

End Sample.

(** Further errors and contexts: the kinds the handler names no branch
    for, a class an application derives from [CheckFailure], and a context
    that already carries the mark. *)
Module Cases.

Definition e_missing_argument : Error :=
  Sample.error_of MissingRequiredArgument
    "count is a required argument that is missing.".
Definition e_no_private_message : Error :=
  Sample.error_of NoPrivateMessage
    "This command cannot be used in private messages.".
Definition e_not_owner : Error :=
  Sample.error_of NotOwner "You do not own this bot.".
Definition e_in_channel : Error :=
  {| err_class := Derived "InChannelCheckFailure" (Framework CheckFailure);
     err_text := "Sorry, but you may only use this command within bot-commands.";
     missing_perms := [];
     original := OtherException "Exception" EmptyString |}.
Definition e_second_not_found : Error :=
  Sample.error_of CommandNotFound "Command pyhton is not found".
Definition e_api_503 : Error :=
  Sample.invoke_error
    (ResponseCodeError {| status := 503; code := 503; json := "{}" |}).

Definition marked_ctx : Ctx :=
  set_invoked_from_error_handler Sample.unknown_ctx true.

End Cases.

(** ** Properties of the dispatch *)

Ltac unfold_handler :=
  unfold outcome, trace, final_ctx, run, on_command_error,
    on_response_code_error, ctx_invoke, ctx_send, log, suppress,
    bind, ret, raise, emit, get_ctx, put_ctx;
  cbv beta iota zeta; cbn [fst snd st_ctx st_trace app].

(** One case split on what the handler tests next. *)
Ltac step :=
  first
  [ match goal with
    | |- context [match ?x with Returns _ => _ | Raises _ => _ end] =>
        destruct x eqn:?
    end
  | match goal with
    | |- context [match ?x with
                  | ResponseCodeError _ => _
                  | OtherException _ _ => _
                  end] => destruct x eqn:?
    end
  | match goal with
    | |- context [if ?b then _ else _] => destruct b eqn:?
    end
  | match goal with
    | |- context [let '(_, _) := ?p in _] => destruct p eqn:?
    end ];
  cbv beta iota; cbn [fst snd st_ctx st_trace app].

(** Decide the [isinstance] tests once the kind of the error is known. *)
Ltac eval_classes :=
  repeat match goal with
  | |- context [issubclass ?a ?b] =>
      let v := eval vm_compute in (issubclass a b) in
      change (issubclass a b) with v
  end;
  cbn [andb orb negb].

Ltac known_kind H :=
  unfold isinstance; rewrite H; eval_classes.

Lemma isinstance_of_kind (e : Error) (k k' : ErrorKind) :
  kind e = k -> isinstance e k' = issubclass k k'.
Proof. intros H. unfold isinstance. now rewrite H. Qed.

(** The kinds that reach the final [else] whatever the context is, and the
    one that reaches it on a context that already has the mark. *)
Lemma no_branch_matches_kinds (ctx : Ctx) (e : Error) :
  no_branch_matches ctx e = true <->
  kind e = CommandError \/ kind e = ConversionError \/
  (kind e = CommandNotFound /\ hasattr_invoked_from_error_handler ctx = true).
Proof.
  unfold no_branch_matches, isinstance.
  destruct (kind e) eqn:K; eval_classes;
    destruct (hasattr_invoked_from_error_handler ctx); cbn [andb orb negb];
    split; intros H; try discriminate; auto;
    repeat match goal with
           | H : _ \/ _ |- _ => destruct H
           | H : _ /\ _ |- _ => destruct H
           end; discriminate.
Qed.

Section Properties.

Variable get_command : string -> option Command.
Variable verification : Z.
Variable invoke_result :
  Ctx -> option Command -> list string -> list (string * string) -> InvokeResult.

#[local] Abbreviation outcome := (outcome get_command verification invoke_result).
#[local] Abbreviation trace := (trace get_command verification invoke_result).
#[local] Abbreviation final_ctx := (final_ctx get_command verification invoke_result).

Lemma help_command_target (ctx : Ctx) :
  fst (help_command get_command ctx) = get_command "help".
Proof.
  unfold help_command.
  destruct (command ctx) as [c|]; [destruct (cmd_parent c)|]; reflexivity.
Qed.

(** The guard of lines 45-47: one debug line, and the handler returns. *)
Lemma local_handler_trace (ctx : Ctx) (e : Error) :
  hasattr_on_error (command ctx) = true ->
  exists message, trace ctx e = [Log DEBUG message].
Proof.
  intros Hhook. unfold_handler.
  destruct (help_command get_command ctx) as [help names].
  rewrite Hhook. eexists. reflexivity.
Qed.

(** C4.  Whatever the context and the error, one run of the handler sends
    at most one chat message, emits at most one log line, makes at most one
    command invocation (help or tag lookup), and lets at most one exception
    out. *)
Theorem at_most_one_of_each_effect (ctx : Ctx) (e : Error) :
  (count is_send (trace ctx e) <= 1)%nat /\
  (count is_log (trace ctx e) <= 1)%nat /\
  (count is_invoke (trace ctx e) <= 1)%nat /\
  (raised_count (outcome ctx e) <= 1)%nat.
Proof.
  unfold_handler.
  repeat step.
  all: cbv [count List.filter is_send is_log is_invoke List.length raised_count].
  all: repeat split; lia.
Qed.

(** C5, amended.  When the resolved command has the attribute [on_error],
    the handler emits one debug-level log line and does nothing else: no
    chat message, no invocation, no exception, and the context is left as
    it was. *)
Theorem local_handler_defers_with_one_debug_line (ctx : Ctx) (e : Error) :
  hasattr_on_error (command ctx) = true ->
  trace ctx e =
    [Log DEBUG ("Command " ++ str_command (command ctx) ++
                " has a local error handler, ignoring.")] /\
  outcome ctx e = Value PyNone /\
  final_ctx ctx e = ctx.
Proof.
  intros Hhook. unfold_handler.
  destruct (help_command get_command ctx) as [help names].
  rewrite Hhook. cbv beta iota; cbn [fst snd st_ctx st_trace app].
  repeat split.
Qed.

(** C7.  For an error whose kind is [MissingPermissions], [CheckFailure],
    [CommandOnCooldown] or [DisabledCommand], the run emits exactly one
    debug-level log line and nothing else: no chat message, no invocation,
    no exception, and the context is unchanged. *)
Theorem permission_and_check_kinds_only_log (ctx : Ctx) (e : Error) :
  In (kind e) [MissingPermissions; CheckFailure; CommandOnCooldown;
               DisabledCommand] ->
  (exists message, trace ctx e = [Log DEBUG message]) /\
  count is_send (trace ctx e) = 0%nat /\
  outcome ctx e = Value PyNone /\
  final_ctx ctx e = ctx.
Proof.
  intros Hk. unfold_handler.
  destruct (help_command get_command ctx) as [help names].
  destruct (hasattr_on_error (command ctx)).
  - cbn [fst snd st_ctx st_trace app]. repeat split; eauto.
  - cbn in Hk.
    destruct Hk as [Hk | [Hk | [Hk | [Hk | []]]]]; symmetry in Hk;
      known_kind Hk; cbv beta iota; cbn [fst snd st_ctx st_trace app];
      repeat split; eauto.
Qed.

(** C9, amended.  For a [CommandNotFound] on a context without the mark, in
    the verification channel, and with no local error handler on the
    resolved command, the run is silent: empty trace, normal return, and
    the context is unchanged (the mark is not set). *)
Theorem verification_channel_swallows_not_found (ctx : Ctx) (e : Error) :
  kind e = CommandNotFound ->
  hasattr_invoked_from_error_handler ctx = false ->
  channel_id ctx = verification ->
  hasattr_on_error (command ctx) = false ->
  trace ctx e = [] /\
  outcome ctx e = Value PyNone /\
  final_ctx ctx e = ctx.
Proof.
  intros Hk Hmark Hchan Hhook. unfold_handler.
  destruct (help_command get_command ctx) as [help names].
  rewrite Hhook, Hmark. known_kind Hk.
  rewrite (proj2 (Z.eqb_eq _ _) Hchan).
  cbn [negb fst snd st_ctx st_trace app]. repeat split.
Qed.

(** C1, amended.  For a [CommandNotFound] on a context without the mark,
    outside the verification channel, and with no local error handler on
    the resolved command: the handler sets the mark on the context, then
    invokes the command registered as [tags get] with the unresolved input
    as [tag_name] (the context it is invoked on already carries the mark),
    and a [ResponseCodeError] raised by that invocation is suppressed: the
    handler returns normally.  Any other exception propagates, and a normal
    result is returned as it is. *)
Theorem tag_lookup_marks_invokes_and_suppresses (ctx : Ctx) (e : Error) :
  kind e = CommandNotFound ->
  hasattr_invoked_from_error_handler ctx = false ->
  channel_id ctx <> verification ->
  hasattr_on_error (command ctx) = false ->
  let marked := set_invoked_from_error_handler ctx true in
  let kwargs := [("tag_name", invoked_with ctx)] in
  let result := invoke_result marked (get_command "tags get") [] kwargs in
  final_ctx ctx e = marked /\
  trace ctx e = [Invoke marked (get_command "tags get") [] kwargs] /\
  (forall response,
      result = Raises (RaisedException (ResponseCodeError response)) ->
      outcome ctx e = Value PyNone) /\
  (forall r, result = Raises r -> suppressed r = false ->
             outcome ctx e = Raise r) /\
  (forall v, result = Returns v -> outcome ctx e = Value v).
Proof.
  intros Hk Hmark Hchan Hhook marked kwargs result.
  subst result kwargs marked. unfold_handler.
  destruct (help_command get_command ctx) as [help names].
  rewrite Hhook, Hmark. known_kind Hk.
  rewrite (proj2 (Z.eqb_neq _ _) Hchan).
  cbn [negb fst snd st_ctx st_trace app].
  destruct (invoke_result _ _ _ _) as [v | r] eqn:Hres;
    cbv beta iota; cbn [fst snd st_ctx st_trace app].
  - repeat split; intros; try discriminate. congruence.
  - destruct (suppressed r) eqn:Hsup; cbn [fst snd st_ctx st_trace];
      repeat split; intros; try discriminate;
      match goal with
      | H : Raises _ = Raises _ |- _ => inversion H; subst
      end; cbn in *; congruence.
Qed.

(** C2, amended.  For a [CommandInvokeError] that wraps a
    [ResponseCodeError], on a command with no local error handler, the
    handler branches on the status of the response: 404, 400 (which also
    logs the decoded body at debug level, before the message), 500 to 599,
    and any other status, which sends a message showing the attribute
    [code].  The four messages are pairwise different, and in each branch
    the handler returns normally and leaves the context as it was. *)
Theorem response_code_error_branches (ctx : Ctx) (e : Error) (r : Response) :
  kind e = CommandInvokeError ->
  original e = ResponseCodeError r ->
  hasattr_on_error (command ctx) = false ->
  let m404 := "There does not seem to be anything matching your query." in
  let m400 := "According to the API, your request is malformed." in
  let m5xx := "Sorry, there seems to be an internal issue with the API." in
  let other := "Got an unexpected status code from the API (`" ++
               Py.str_int (code r) ++ "`)." in
  (status r = 404 -> trace ctx e = [Send m404]) /\
  (status r = 400 ->
   trace ctx e =
     [Log DEBUG ("API gave bad request on command. Response: " ++ json r ++ ".");
      Send m400]) /\
  (500 <= status r < 600 -> trace ctx e = [Send m5xx]) /\
  (status r <> 404 -> status r <> 400 -> ~ (500 <= status r < 600) ->
   trace ctx e = [Send other]) /\
  NoDup [m404; m400; m5xx; other] /\
  outcome ctx e = Value PyNone /\
  final_ctx ctx e = ctx.
Proof.
  intros Hk Horig Hhook m404 m400 m5xx other.
  subst m404 m400 m5xx other. unfold_handler.
  destruct (help_command get_command ctx) as [help names].
  rewrite Hhook, Horig. known_kind Hk.
  cbv beta iota; cbn [fst snd st_ctx st_trace app].
  assert (Hdistinct : NoDup
    ["There does not seem to be anything matching your query.";
     "According to the API, your request is malformed.";
     "Sorry, there seems to be an internal issue with the API.";
     "Got an unexpected status code from the API (`" ++
       Py.str_int (code r) ++ "`)."]).
  { repeat constructor; cbn [In]; intros H;
      repeat destruct H as [H | H]; try discriminate H; exact H. }
  destruct (status r =? 404) eqn:E404;
    [apply Z.eqb_eq in E404 | apply Z.eqb_neq in E404].
  { cbn [fst snd st_ctx st_trace app].
    repeat split; auto; intros; try lia. }
  destruct (status r =? 400) eqn:E400;
    [apply Z.eqb_eq in E400 | apply Z.eqb_neq in E400].
  { cbn [fst snd st_ctx st_trace app].
    repeat split; auto; intros; try lia. }
  destruct ((500 <=? status r) && (status r <? 600)) eqn:E5xx.
  { apply andb_true_iff in E5xx. destruct E5xx as [Hlo Hhi].
    apply Z.leb_le in Hlo. apply Z.ltb_lt in Hhi.
    cbn [fst snd st_ctx st_trace app].
    repeat split; auto; intros; try lia. }
  apply andb_false_iff in E5xx.
  cbn [fst snd st_ctx st_trace app].
  repeat split; auto; intros; try lia.
  all: destruct E5xx as [Hlo | Hhi];
    [apply Z.leb_gt in Hlo | apply Z.ltb_ge in Hhi]; lia.
Qed.

(** C3, amended.  On a command with no local error handler: for a
    [CommandInvokeError] whose original error is not a [ResponseCodeError],
    the handler sends exactly one message, the generic one with the text of
    the error in it, and then raises the original error (not the wrapper);
    and an error for which no branch of the chain matches is raised again
    as it is, with nothing sent, logged or invoked. *)
Theorem unexpected_and_unmatched_errors_are_raised (ctx : Ctx) (e : Error) :
  hasattr_on_error (command ctx) = false ->
  (kind e = CommandInvokeError ->
   is_ResponseCodeError (original e) = false ->
   trace ctx e =
     [Send ("Sorry, an unexpected error occurred. Please let us know!" ++
            Py.nl ++ Py.nl ++ "```" ++ err_text e ++ "```")] /\
   outcome ctx e = Raise (RaisedException (original e)) /\
   final_ctx ctx e = ctx) /\
  (no_branch_matches ctx e = true ->
   trace ctx e = [] /\
   outcome ctx e = Raise (RaisedError e) /\
   final_ctx ctx e = ctx).
Proof.
  intros Hhook. split.
  - intros Hk Hnot. unfold_handler.
    destruct (help_command get_command ctx) as [help names].
    rewrite Hhook. known_kind Hk.
    destruct (original e) as [r | n t]; [discriminate Hnot|].
    cbv beta iota; cbn [fst snd st_ctx st_trace app]. repeat split.
  - intros Hno. unfold no_branch_matches in Hno.
    repeat (apply andb_true_iff in Hno; let H := fresh "Hb" in
            destruct Hno as [Hno H]; apply negb_true_iff in H).
    apply negb_true_iff in Hno.
    unfold_handler.
    destruct (help_command get_command ctx) as [help names].
    rewrite Hhook, Hno, Hb5, Hb4, Hb3, Hb2, Hb1, Hb0, Hb.
    cbv beta iota; cbn [fst snd st_ctx st_trace app]. repeat split.
Qed.

(** C6, amended.  For a [BadArgument] (which is also an instance of
    [UserInputError], tested after it) on a command with no local error
    handler, the handler sends the message with the text of the error and
    then invokes the help command: with the names of the parent and of the
    command when the command has a parent, with the name of the command
    alone when it has none. *)
Theorem bad_argument_sends_then_invokes_help (ctx : Ctx) (e : Error) :
  kind e = BadArgument ->
  hasattr_on_error (command ctx) = false ->
  isinstance e UserInputError = true /\
  (forall c p, command ctx = Some c -> cmd_parent c = Some p ->
     trace ctx e =
       [Send ("Bad argument: " ++ err_text e ++ Py.nl);
        Invoke ctx (get_command "help") [cmd_name p; cmd_name c] []]) /\
  (forall c, command ctx = Some c -> cmd_parent c = None ->
     trace ctx e =
       [Send ("Bad argument: " ++ err_text e ++ Py.nl);
        Invoke ctx (get_command "help") [cmd_name c] []]) /\
  (command ctx = None ->
     trace ctx e =
       [Send ("Bad argument: " ++ err_text e ++ Py.nl);
        Invoke ctx (get_command "help") [] []]) /\
  final_ctx ctx e = ctx.
Proof.
  intros Hk Hhook.
  split; [rewrite (isinstance_of_kind _ _ _ Hk); reflexivity|].
  assert (Htrace : trace ctx e =
            [Send ("Bad argument: " ++ err_text e ++ Py.nl);
             Invoke ctx (fst (help_command get_command ctx))
               (snd (help_command get_command ctx)) []] /\
          final_ctx ctx e = ctx).
  { unfold_handler.
    destruct (help_command get_command ctx) as [help names].
    rewrite Hhook. known_kind Hk.
    cbv beta iota; cbn [fst snd st_ctx st_trace app].
    destruct (invoke_result _ _ _ _); cbn [fst snd st_ctx st_trace app];
      split; reflexivity. }
  destruct Htrace as [Htrace Hctx]. rewrite Htrace.
  unfold help_command.
  repeat split; auto.
  - intros c p Hc Hp. rewrite Hc, Hp. reflexivity.
  - intros c Hc Hp. rewrite Hc, Hp. reflexivity.
  - intros Hc. rewrite Hc. reflexivity.
Qed.

(** C8, amended.  For a [BotMissingPermissions] on a command with no local
    error handler, the handler sends the fixed apology, then emits one
    warning-level log line that ends with the list of missing permissions,
    and returns normally. *)
Theorem bot_missing_permissions_apology_and_warning (ctx : Ctx) (e : Error) :
  kind e = BotMissingPermissions ->
  hasattr_on_error (command ctx) = false ->
  trace ctx e =
    [Send "Sorry, it looks like I don't have the permissions I need to do that.";
     Log WARNING ("The bot is missing permissions to execute command " ++
                  str_command (command ctx) ++ ": " ++
                  Py.str_list (missing_perms e))] /\
  outcome ctx e = Value PyNone /\
  final_ctx ctx e = ctx.
Proof.
  intros Hk Hhook. unfold_handler.
  destruct (help_command get_command ctx) as [help names].
  rewrite Hhook. known_kind Hk.
  cbv beta iota; cbn [fst snd st_ctx st_trace app]. repeat split.
Qed.

Lemma status_outside_named_ranges (r : Response) :
  status r <> 404 -> status r <> 400 -> ~ (500 <= status r < 600) ->
  (status r =? 404) = false /\ (status r =? 400) = false /\
  (500 <=? status r) && (status r <? 600) = false.
Proof.
  intros H404 H400 H5xx. repeat split.
  - now apply Z.eqb_neq.
  - now apply Z.eqb_neq.
  - apply andb_false_iff.
    destruct (500 <=? status r) eqn:Hlo; [right | now left].
    apply Z.leb_le in Hlo. apply Z.ltb_ge. lia.
Qed.

(** The last branch of lines 82-86, reached without a local handler. *)
Lemma unexpected_status_trace (ctx : Ctx) (e : Error) (r : Response) :
  kind e = CommandInvokeError ->
  original e = ResponseCodeError r ->
  status r <> 404 -> status r <> 400 -> ~ (500 <= status r < 600) ->
  hasattr_on_error (command ctx) = false ->
  trace ctx e =
    [Send ("Got an unexpected status code from the API (`" ++
           Py.str_int (code r) ++ "`).")].
Proof.
  intros Hk Horig H404 H400 H5xx Hhook.
  destruct (status_outside_named_ranges r H404 H400 H5xx) as (E1 & E2 & E3).
  unfold_handler.
  destruct (help_command get_command ctx) as [help names].
  rewrite Hhook, Horig. known_kind Hk. rewrite E1, E2, E3.
  reflexivity.
Qed.

(** C10.  For a [CommandInvokeError] that wraps a [ResponseCodeError] whose
    status is not 404, not 400 and not in 500..599, every message the run
    sends is the one that interpolates the attribute [code] of the
    response, and without a local error handler that message is sent.  The
    tests that select the branch read [status], another attribute: there is
    an error of the same class wrapping a response with the same status
    whose code differs from that status, and the message of its run shows
    that code. *)
Theorem unexpected_status_message_shows_code (ctx : Ctx) (e : Error)
    (r : Response) :
  kind e = CommandInvokeError ->
  original e = ResponseCodeError r ->
  status r <> 404 -> status r <> 400 -> ~ (500 <= status r < 600) ->
  let shown (x : Response) :=
    "Got an unexpected status code from the API (`" ++
    Py.str_int (code x) ++ "`)." in
  (forall m, In (Send m) (trace ctx e) -> m = shown r) /\
  (hasattr_on_error (command ctx) = false -> trace ctx e = [Send (shown r)]) /\
  (exists e' r',
      kind e' = CommandInvokeError /\
      original e' = ResponseCodeError r' /\
      status r' = status r /\
      code r' <> status r' /\
      (hasattr_on_error (command ctx) = false ->
       trace ctx e' = [Send (shown r')])).
Proof.
  intros Hk Horig H404 H400 H5xx shown. subst shown. cbv beta.
  split; [|split].
  - destruct (hasattr_on_error (command ctx)) eqn:Hhook.
    + destruct (local_handler_trace ctx e Hhook) as [msg Hmsg].
      rewrite Hmsg. intros m [Hm | []]. discriminate Hm.
    + rewrite (unexpected_status_trace ctx e r); auto.
      intros m [Hm | []]. now injection Hm as <-.
  - intros Hhook. now apply unexpected_status_trace.
  - pose (r' := {| status := status r; code := status r + 1; json := json r |}).
    exists {| err_class := err_class e; err_text := err_text e;
              missing_perms := missing_perms e;
              original := ResponseCodeError r' |}, r'.
    repeat split; auto.
    + cbn. lia.
    + intros Hhook. now apply unexpected_status_trace.
Qed.

End Properties.

(** ** Concrete runs *)

Section Runs.

Import Sample.

#[local] Abbreviation run_trace := (trace get_command verification invoke_returns).
#[local] Abbreviation run_outcome := (outcome get_command verification invoke_returns).
#[local] Abbreviation run_final := (final_ctx get_command verification invoke_returns).

(** The tag lookup on an unresolved word, when the API answers 404 to it:
    the context is marked, the lookup is invoked, the handler returns. *)
Lemma tag_lookup_witness :
  kind e_not_found = CommandNotFound /\
  hasattr_invoked_from_error_handler unknown_ctx = false /\
  channel_id unknown_ctx <> verification /\
  hasattr_on_error (command unknown_ctx) = false /\
  final_ctx get_command verification invoke_api_404 unknown_ctx e_not_found =
    set_invoked_from_error_handler unknown_ctx true /\
  trace get_command verification invoke_api_404 unknown_ctx e_not_found =
    [Invoke (set_invoked_from_error_handler unknown_ctx true) (Some tags_get)
       [] [("tag_name", "python")]] /\
  outcome get_command verification invoke_api_404 unknown_ctx e_not_found =
    Value PyNone.
Proof.
  assert (Hc : channel_id unknown_ctx <> verification)
    by (vm_compute; discriminate).
  refine (conj eq_refl (conj eq_refl (conj Hc (conj eq_refl _)))).
  destruct (tag_lookup_marks_invokes_and_suppresses
              get_command verification invoke_api_404 unknown_ctx e_not_found
              eq_refl eq_refl Hc eq_refl) as (Hctx & Htrace & Hsup & _).
  exact (conj Hctx (conj Htrace (Hsup not_found eq_refl))).
Defined.

(** C1 as stated fails when the resolved command has a local handler: the
    context is not marked and nothing is invoked. *)
Lemma tag_lookup_skipped_under_local_handler :
  kind e_not_found = CommandNotFound /\
  hasattr_invoked_from_error_handler ban_ctx = false /\
  channel_id ban_ctx <> verification /\
  invoked_from_error_handler (run_final ban_ctx e_not_found) = None /\
  count is_invoke (run_trace ban_ctx e_not_found) = 0%nat.
Proof.
  repeat split. vm_compute. discriminate.
Qed.

Lemma response_code_error_branches_witness :
  kind e_api_404 = CommandInvokeError /\
  original e_api_404 = ResponseCodeError not_found /\
  hasattr_on_error (command faq_ctx) = false /\
  status not_found = 404 /\
  run_trace faq_ctx e_api_404 =
    [Send "There does not seem to be anything matching your query."].
Proof.
  refine (conj eq_refl (conj eq_refl (conj eq_refl (conj eq_refl _)))).
  exact (proj1 (response_code_error_branches
                  get_command verification invoke_returns faq_ctx e_api_404
                  not_found eq_refl eq_refl eq_refl) eq_refl).
Defined.

(** C2 as stated fails when the command has a local handler: on status 404
    no message is sent. *)
Lemma response_code_error_silent_under_local_handler :
  kind e_api_404 = CommandInvokeError /\
  original e_api_404 = ResponseCodeError not_found /\
  status not_found = 404 /\
  run_trace ban_ctx e_api_404 =
    [Log DEBUG "Command ban has a local error handler, ignoring."] /\
  ~ In (Send "There does not seem to be anything matching your query.")
       (run_trace ban_ctx e_api_404).
Proof.
  repeat split. intros [H | []]. discriminate H.
Qed.

Lemma unexpected_and_unmatched_witness :
  hasattr_on_error (command faq_ctx) = false /\
  kind e_value_error = CommandInvokeError /\
  is_ResponseCodeError (original e_value_error) = false /\
  no_branch_matches faq_ctx e_conversion = true /\
  run_outcome faq_ctx e_value_error =
    Raise (RaisedException (OtherException "ValueError" "invalid literal for int()")) /\
  run_outcome faq_ctx e_conversion = Raise (RaisedError e_conversion).
Proof.
  refine (conj eq_refl (conj eq_refl (conj eq_refl (conj eq_refl _)))).
  split.
  - exact (proj1 (proj2 (proj1 (unexpected_and_unmatched_errors_are_raised
                    get_command verification invoke_returns faq_ctx
                    e_value_error eq_refl) eq_refl eq_refl))).
  - exact (proj1 (proj2 (proj2 (unexpected_and_unmatched_errors_are_raised
                    get_command verification invoke_returns faq_ctx
                    e_conversion eq_refl) eq_refl))).
Defined.

(** C3 as stated fails when the command has a local handler: nothing is
    sent and nothing is raised, for the wrapped error and for an error that
    no branch matches. *)
Lemma nothing_raised_under_local_handler :
  kind e_value_error = CommandInvokeError /\
  is_ResponseCodeError (original e_value_error) = false /\
  count is_send (run_trace ban_ctx e_value_error) = 0%nat /\
  run_outcome ban_ctx e_value_error = Value PyNone /\
  no_branch_matches ban_ctx e_conversion = true /\
  run_outcome ban_ctx e_conversion = Value PyNone.
Proof. repeat split. Qed.

Lemma local_handler_witness :
  hasattr_on_error (command ban_ctx) = true /\
  run_trace ban_ctx e_bad_argument =
    [Log DEBUG "Command ban has a local error handler, ignoring."] /\
  run_outcome ban_ctx e_bad_argument = Value PyNone /\
  run_final ban_ctx e_bad_argument = ban_ctx.
Proof.
  refine (conj eq_refl _).
  exact (local_handler_defers_with_one_debug_line
           get_command verification invoke_returns ban_ctx e_bad_argument
           eq_refl).
Defined.

(** C5 as stated fails: the deferring branch does act, it emits a log
    line. *)
Lemma local_handler_branch_logs :
  hasattr_on_error (command ban_ctx) = true /\
  run_trace ban_ctx e_bad_argument <> [] /\
  count is_log (run_trace ban_ctx e_bad_argument) = 1%nat.
Proof.
  repeat split. discriminate.
Qed.

Lemma bad_argument_witness :
  kind e_bad_argument = BadArgument /\
  hasattr_on_error (command faq_ctx) = false /\
  command faq_ctx = Some site_faq /\
  cmd_parent site_faq = Some site /\
  run_trace faq_ctx e_bad_argument =
    [Send ("Bad argument: Converting to int failed for parameter count." ++ Py.nl);
     Invoke faq_ctx (Some help) ["site"; "faq"] []].
Proof.
  refine (conj eq_refl (conj eq_refl (conj eq_refl (conj eq_refl _)))).
  exact (proj1 (proj2 (bad_argument_sends_then_invokes_help
                  get_command verification invoke_returns faq_ctx
                  e_bad_argument eq_refl eq_refl))
           site_faq site eq_refl eq_refl).
Defined.

(** C6 as stated fails when the command has a local handler: nothing is
    sent and the help command is not invoked. *)
Lemma bad_argument_silent_under_local_handler :
  kind e_bad_argument = BadArgument /\
  count is_send (run_trace ban_ctx e_bad_argument) = 0%nat /\
  count is_invoke (run_trace ban_ctx e_bad_argument) = 0%nat.
Proof. repeat split. Qed.

Lemma permission_and_check_kinds_witness :
  In (kind e_user_missing)
     [MissingPermissions; CheckFailure; CommandOnCooldown; DisabledCommand] /\
  count is_send (run_trace faq_ctx e_user_missing) = 0%nat /\
  run_outcome faq_ctx e_user_missing = Value PyNone.
Proof.
  assert (Hk : In (kind e_user_missing)
                 [MissingPermissions; CheckFailure; CommandOnCooldown;
                  DisabledCommand]) by (left; reflexivity).
  refine (conj Hk _).
  destruct (permission_and_check_kinds_only_log
              get_command verification invoke_returns faq_ctx e_user_missing
              Hk) as (_ & Hsend & Hout & _).
  exact (conj Hsend Hout).
Defined.

Lemma bot_missing_permissions_witness :
  kind e_bot_missing = BotMissingPermissions /\
  hasattr_on_error (command faq_ctx) = false /\
  run_trace faq_ctx e_bot_missing =
    [Send "Sorry, it looks like I don't have the permissions I need to do that.";
     Log WARNING
       "The bot is missing permissions to execute command site faq: ['manage_messages', 'embed_links']"].
Proof.
  refine (conj eq_refl (conj eq_refl _)).
  exact (proj1 (bot_missing_permissions_apology_and_warning
                  get_command verification invoke_returns faq_ctx
                  e_bot_missing eq_refl eq_refl)).
Defined.

(** C8 as stated fails when the command has a local handler: no apology is
    sent and the one log line is at debug level. *)
Lemma bot_missing_permissions_silent_under_local_handler :
  kind e_bot_missing = BotMissingPermissions /\
  run_trace ban_ctx e_bot_missing =
    [Log DEBUG "Command ban has a local error handler, ignoring."] /\
  count is_send (run_trace ban_ctx e_bot_missing) = 0%nat.
Proof. repeat split. Qed.

Lemma verification_channel_witness :
  kind e_not_found = CommandNotFound /\
  hasattr_invoked_from_error_handler verify_ctx = false /\
  channel_id verify_ctx = verification /\
  hasattr_on_error (command verify_ctx) = false /\
  run_trace verify_ctx e_not_found = [] /\
  run_outcome verify_ctx e_not_found = Value PyNone /\
  run_final verify_ctx e_not_found = verify_ctx.
Proof.
  refine (conj eq_refl (conj eq_refl (conj eq_refl (conj eq_refl _)))).
  exact (verification_channel_swallows_not_found
           get_command verification invoke_returns verify_ctx e_not_found
           eq_refl eq_refl eq_refl eq_refl).
Defined.

(** C9 as stated fails when the resolved command has a local handler: a
    log line is emitted. *)
Lemma verification_channel_logs_under_local_handler :
  kind e_not_found = CommandNotFound /\
  hasattr_invoked_from_error_handler ban_verify_ctx = false /\
  channel_id ban_verify_ctx = verification /\
  run_trace ban_verify_ctx e_not_found =
    [Log DEBUG "Command ban has a local error handler, ignoring."] /\
  count is_log (run_trace ban_verify_ctx e_not_found) = 1%nat.
Proof. repeat split. Qed.

(** A response whose status, 418, selects the last branch and whose code
    is 200: the message shows 200. *)
Lemma unexpected_status_witness :
  kind e_api_teapot = CommandInvokeError /\
  original e_api_teapot = ResponseCodeError teapot /\
  status teapot = 418 /\ code teapot = 200 /\
  hasattr_on_error (command faq_ctx) = false /\
  run_trace faq_ctx e_api_teapot =
    [Send "Got an unexpected status code from the API (`200`)."].
Proof.
  refine (conj eq_refl (conj eq_refl (conj eq_refl (conj eq_refl
            (conj eq_refl _))))).
  assert (H404 : status teapot <> 404) by (vm_compute; discriminate).
  assert (H400 : status teapot <> 400) by (vm_compute; discriminate).
  assert (H5xx : ~ (500 <= status teapot < 600))
    by (intros [Hlo _]; vm_compute in Hlo; apply Hlo; reflexivity).
  exact (proj1 (proj2 (unexpected_status_message_shows_code
                         get_command verification invoke_returns faq_ctx
                         e_api_teapot teapot eq_refl eq_refl H404 H400 H5xx))
           eq_refl).
Defined.

End Runs.

(** ** The rendering of permission lists *)

Lemma escape_plain_char (c : ascii) :
  Py.plain_char c = true ->
  Py.escape_char Py.squote c = String c EmptyString /\
  Ascii.eqb c Py.squote = false.
Proof.
  destruct c as [[] [] [] [] [] [] [] []]; vm_compute; intros H;
    first [discriminate H | split; reflexivity].
Qed.

(** A name made of plain characters, as the permission names of the
    framework are, is rendered between single quotes, unchanged. *)
Lemma repr_str_plain (s : string) :
  Py.plain s = true -> Py.repr_str s = "'" ++ s ++ "'".
Proof.
  intros Hplain.
  assert (H : Py.contains Py.squote s = false /\ Py.escape Py.squote s = s).
  { induction s as [| c rest IH]; [split; reflexivity|].
    cbn [Py.plain] in Hplain. apply andb_true_iff in Hplain.
    destruct Hplain as [Hc Hrest].
    destruct (escape_plain_char c Hc) as [Hesc Hquote].
    destruct (IH Hrest) as [IH1 IH2].
    cbn [Py.contains Py.escape]. rewrite Hesc, Hquote, IH1, IH2.
    split; reflexivity. }
  destruct H as [Hno Hesc].
  unfold Py.repr_str, Py.repr_quote. rewrite Hno. cbn [andb]. rewrite Hesc.
  reflexivity.
Qed.

(** A name with an apostrophe is delimited by double quotes; with both
    kinds of quote, by single quotes and the apostrophe escaped. *)
Lemma repr_str_apostrophe :
  Py.repr_str "can't" =
    String Py.dquote ("can't" ++ String Py.dquote EmptyString) /\
  Py.repr_str ("it's " ++ String Py.dquote "so") =
    "'it\'s " ++ String Py.dquote "so'".
Proof. split; reflexivity. Qed.

(** Backslash, the three named controls, the other controls, and the
    characters from 127 to 255 that are and are not printable. *)
Lemma repr_str_escapes :
  Py.repr_str (String Py.backslash
                 (String (ascii_of_nat 9) (String (ascii_of_nat 10)
                 (String (ascii_of_nat 13) (String (ascii_of_nat 0)
                 (String (ascii_of_nat 31) (String (ascii_of_nat 127)
                 (String (ascii_of_nat 160) (String (ascii_of_nat 173)
                 (String (ascii_of_nat 161) (String (ascii_of_nat 255)
                 " ~"))))))))))) =
    "'\\\t\n\r\x00\x1f\x7f\xa0\xad" ++
    String (ascii_of_nat 161) (String (ascii_of_nat 255) " ~'").
Proof. reflexivity. Qed.

Lemma str_list_examples :
  Py.str_list [] = "[]" /\
  Py.str_list ["kick_members"] = "['kick_members']" /\
  Py.str_list ["can't"; "manage_messages"] =
    "[" ++ String Py.dquote ("can't" ++ String Py.dquote ", 'manage_messages']").
Proof. repeat split. Qed.

(** ** The branches the table has beside those, and what every run keeps *)

(** Case analysis on the kind of the error, after the handler is unfolded. *)
Ltac by_kind e :=
  unfold isinstance in *;
  let K := fresh "Hkind" in
  destruct (kind e) eqn:K;
  repeat match goal with
  | H : issubclass _ _ = _ |- _ => vm_compute in H; try discriminate H
  end;
  eval_classes.

Section Branches.

Variable get_command : string -> option Command.
Variable verification : Z.
Variable invoke_result :
  Ctx -> option Command -> list string -> list (string * string) -> InvokeResult.

#[local] Abbreviation outcome := (outcome get_command verification invoke_result).
#[local] Abbreviation trace := (trace get_command verification invoke_result).
#[local] Abbreviation final_ctx := (final_ctx get_command verification invoke_result).
#[local] Abbreviation help_names := (fun ctx => snd (help_command get_command ctx)).

(** What the two help branches do, up to the message they send. *)
Lemma help_branch_run (ctx : Ctx) (e : Error) :
  isinstance e UserInputError = true ->
  hasattr_on_error (command ctx) = false ->
  trace ctx e =
    [Send (if isinstance e BadArgument
           then "Bad argument: " ++ err_text e ++ Py.nl
           else "Something about your input seems off. Check the arguments:");
     Invoke ctx (get_command "help") (help_names ctx) []] /\
  final_ctx ctx e = ctx /\
  outcome ctx e =
    match invoke_result ctx (get_command "help") (help_names ctx) [] with
    | Returns _ => Value PyNone
    | Raises r => Raise r
    end.
Proof.
  intros Hk Hhook. pose proof (help_command_target get_command ctx) as Htarget.
  unfold_handler.
  destruct (help_command get_command ctx) as [help names].
  cbn [fst snd] in *. subst help.
  rewrite Hhook. by_kind e;
    cbv beta iota; cbn [fst snd st_ctx st_trace app];
    destruct (invoke_result _ _ _ _); repeat split.
Qed.

(** X1.  An error that is a [UserInputError] but not a [BadArgument] (a
    missing or surplus argument, for one), on a command with no local error
    handler: the handler sends the fixed hint and then invokes the help
    command with the names of the command, and leaves the context alone. *)
Theorem user_input_error_sends_hint_then_help (ctx : Ctx) (e : Error) :
  isinstance e UserInputError = true ->
  isinstance e BadArgument = false ->
  hasattr_on_error (command ctx) = false ->
  trace ctx e =
    [Send "Something about your input seems off. Check the arguments:";
     Invoke ctx (get_command "help") (help_names ctx) []] /\
  final_ctx ctx e = ctx.
Proof.
  intros Hk Hbad Hhook.
  destruct (help_branch_run ctx e Hk Hhook) as (Htrace & Hctx & _).
  rewrite Hbad in Htrace. split; assumption.
Qed.

(** X2.  [NoPrivateMessage] is a [CheckFailure], but it is tested before
    [CheckFailure]: without a local error handler the user gets the fixed
    notice, nothing is logged, and the handler returns normally. *)
Theorem no_private_message_gets_a_notice (ctx : Ctx) (e : Error) :
  kind e = NoPrivateMessage ->
  hasattr_on_error (command ctx) = false ->
  isinstance e CheckFailure = true /\
  trace ctx e =
    [Send "Sorry, this command can't be used in a private message!"] /\
  outcome ctx e = Value PyNone /\
  final_ctx ctx e = ctx.
Proof.
  intros Hk Hhook.
  split; [rewrite (isinstance_of_kind _ _ _ Hk); reflexivity|].
  unfold_handler.
  destruct (help_command get_command ctx) as [help names].
  rewrite Hhook. known_kind Hk. repeat split.
Qed.

(** X3.  The help invocation is not guarded: whatever it raises, a
    [ResponseCodeError] included, leaves the handler, after the message has
    been sent; and when it returns, its value is dropped and the handler
    returns [None]. *)
Theorem help_invocation_failure_propagates (ctx : Ctx) (e : Error) :
  isinstance e UserInputError = true ->
  hasattr_on_error (command ctx) = false ->
  (forall r,
      invoke_result ctx (get_command "help") (help_names ctx) [] = Raises r ->
      outcome ctx e = Raise r /\ count is_send (trace ctx e) = 1%nat) /\
  (forall v,
      invoke_result ctx (get_command "help") (help_names ctx) [] = Returns v ->
      outcome ctx e = Value PyNone).
Proof.
  intros Hk Hhook.
  destruct (help_branch_run ctx e Hk Hhook) as (Htrace & _ & Hout).
  split.
  - intros r Hr. rewrite Hr in Hout. rewrite Htrace. split; [exact Hout|].
    reflexivity.
  - intros v Hv. rewrite Hv in Hout. exact Hout.
Qed.

(** X4.  Without a local error handler, a [MissingPermissions] error is
    logged at debug level with the author, the qualified name of the
    command and the list of missing permissions; nothing is sent. *)
Theorem user_missing_permissions_log_line (ctx : Ctx) (e : Error) :
  kind e = MissingPermissions ->
  hasattr_on_error (command ctx) = false ->
  trace ctx e =
    [Log DEBUG (author ctx ++ " is missing permissions to invoke command " ++
                str_command (command ctx) ++ ": " ++
                Py.str_list (missing_perms e))] /\
  outcome ctx e = Value PyNone.
Proof.
  intros Hk Hhook. unfold_handler.
  destruct (help_command get_command ctx) as [help names].
  rewrite Hhook. known_kind Hk. repeat split.
Qed.

(** X5.  Without a local error handler, every [CheckFailure] that is not
    one of the three kinds tested before it ([NotOwner] and the classes an
    application derives from [CheckFailure] are such), and every
    [CommandOnCooldown] and [DisabledCommand], is only logged at debug
    level, in a line that names the command, the author, the name of the
    error's own class and its text. *)
Theorem other_check_failures_log_line (ctx : Ctx) (e : Error) :
  In (kind e) [CheckFailure; NotOwner; CommandOnCooldown; DisabledCommand] ->
  hasattr_on_error (command ctx) = false ->
  trace ctx e =
    [Log DEBUG ("Command " ++ str_command (command ctx) ++ " invoked by " ++
                author ctx ++ " with error " ++ class_name (err_class e) ++
                ": " ++ err_text e)] /\
  outcome ctx e = Value PyNone.
Proof.
  intros Hk Hhook. unfold_handler.
  destruct (help_command get_command ctx) as [help names].
  rewrite Hhook. cbn in Hk.
  destruct Hk as [Hk | [Hk | [Hk | [Hk | []]]]]; symmetry in Hk;
    known_kind Hk; repeat split.
Qed.

End Branches.

Section WholeTable.

Variable get_command : string -> option Command.
Variable verification : Z.
Variable invoke_result :
  Ctx -> option Command -> list string -> list (string * string) -> InvokeResult.

#[local] Abbreviation outcome := (outcome get_command verification invoke_result).
#[local] Abbreviation trace := (trace get_command verification invoke_result).
#[local] Abbreviation final_ctx := (final_ctx get_command verification invoke_result).
#[local] Abbreviation help_names := (fun ctx => snd (help_command get_command ctx)).

Lemma tag_lookup_final_ctx (ctx : Ctx) (e : Error) :
  kind e = CommandNotFound ->
  hasattr_invoked_from_error_handler ctx = false ->
  channel_id ctx <> verification ->
  hasattr_on_error (command ctx) = false ->
  final_ctx ctx e = set_invoked_from_error_handler ctx true.
Proof.
  intros Hk Hmark Hchan Hhook. unfold_handler.
  destruct (help_command get_command ctx) as [help names].
  rewrite Hhook, Hmark. known_kind Hk.
  rewrite (proj2 (Z.eqb_neq _ _) Hchan). cbn [negb].
  destruct (invoke_result _ _ _ _) as [v | r]; [reflexivity|].
  cbv beta iota. destruct (suppressed r); reflexivity.
Qed.

Lemma marked_not_found_reraised (ctx : Ctx) (e : Error) :
  kind e = CommandNotFound ->
  hasattr_invoked_from_error_handler ctx = true ->
  hasattr_on_error (command ctx) = false ->
  trace ctx e = [] /\
  outcome ctx e = Raise (RaisedError e) /\
  final_ctx ctx e = ctx.
Proof.
  intros Hk Hmark Hhook. unfold_handler.
  destruct (help_command get_command ctx) as [help names].
  rewrite Hhook, Hmark. known_kind Hk. repeat split.
Qed.

(** X6.  The mark stops a second lookup.  On the context that a tag lookup
    leaves behind, a further [CommandNotFound] is raised again as it is and
    nothing is invoked, sent or logged, however the first lookup ended. *)
Theorem marked_context_is_not_looked_up_again (ctx : Ctx) (e e' : Error) :
  kind e = CommandNotFound ->
  kind e' = CommandNotFound ->
  hasattr_invoked_from_error_handler ctx = false ->
  channel_id ctx <> verification ->
  hasattr_on_error (command ctx) = false ->
  trace (final_ctx ctx e) e' = [] /\
  outcome (final_ctx ctx e) e' = Raise (RaisedError e') /\
  final_ctx (final_ctx ctx e) e' = final_ctx ctx e.
Proof.
  intros Hk Hk' Hmark Hchan Hhook.
  rewrite (tag_lookup_final_ctx ctx e Hk Hmark Hchan Hhook).
  apply marked_not_found_reraised; auto.
Qed.

(** X7.  The only change a run makes to the context is to set the mark to
    [True], and it makes it only in the tag lookup: for a [CommandNotFound]
    on an unmarked context outside the verification channel, with no local
    error handler. *)
Theorem context_changes_only_by_the_mark (ctx : Ctx) (e : Error) :
  final_ctx ctx e = ctx \/
  (final_ctx ctx e = set_invoked_from_error_handler ctx true /\
   kind e = CommandNotFound /\
   hasattr_invoked_from_error_handler ctx = false /\
   channel_id ctx <> verification /\
   hasattr_on_error (command ctx) = false).
Proof.
  unfold_handler.
  destruct (help_command get_command ctx) as [help names].
  destruct (hasattr_on_error (command ctx)) eqn:Hhook; [now left|].
  by_kind e; cbv beta iota; cbn [fst snd st_ctx st_trace app];
    repeat step; try (left; reflexivity).
  all: right; repeat split; auto.
  all: try (apply Z.eqb_neq; apply negb_true_iff; assumption).
  all: try (apply negb_true_iff; assumption).
Qed.

(** X9.  A run sends a chat message exactly when the command has no local
    error handler and the error is a [UserInputError], a
    [NoPrivateMessage], a [BotMissingPermissions] or a
    [CommandInvokeError]: unknown commands, missing user permissions,
    failed checks, cooldowns and disabled commands get no message. *)
Theorem message_sent_iff (ctx : Ctx) (e : Error) :
  count is_send (trace ctx e) = 1%nat <->
  hasattr_on_error (command ctx) = false /\
  (isinstance e UserInputError = true \/ kind e = NoPrivateMessage \/
   kind e = BotMissingPermissions \/ kind e = CommandInvokeError).
Proof.
  unfold_handler.
  destruct (help_command get_command ctx) as [help names].
  destruct (hasattr_on_error (command ctx)) eqn:Hhook.
  { cbv [count List.filter is_send List.length]. split; [discriminate|].
    intros [H _]. discriminate H. }
  by_kind e; cbv beta iota; cbn [fst snd st_ctx st_trace app];
    repeat step; cbv [count List.filter is_send List.length];
    (split; [intros H; try discriminate H; (split; [reflexivity|])
            | intros [_ H]; try reflexivity]).
  all: try (left; reflexivity).
  all: try (right; left; reflexivity).
  all: try (right; right; left; reflexivity).
  all: try (right; right; right; reflexivity).
  all: repeat match goal with
       | H : _ \/ _ |- _ => destruct H
       end; discriminate.
Qed.

(** X10.  The one case in which a run does nothing at all and still
    returns normally is the unknown command in the verification channel:
    every other error is answered, logged, looked up or raised. *)
Theorem silent_return_iff (ctx : Ctx) (e : Error) :
  (trace ctx e = [] /\ exists v, outcome ctx e = Value v) <->
  kind e = CommandNotFound /\
  hasattr_invoked_from_error_handler ctx = false /\
  channel_id ctx = verification /\
  hasattr_on_error (command ctx) = false.
Proof.
  unfold_handler.
  destruct (help_command get_command ctx) as [help names].
  destruct (hasattr_on_error (command ctx)) eqn:Hhook.
  { split; [intros [H _]; discriminate H | intros (_ & _ & _ & H); discriminate H]. }
  by_kind e; cbv beta iota; cbn [fst snd st_ctx st_trace app];
    repeat step;
    (split;
     [ intros [Ht [? Hv]]; try discriminate Ht; try discriminate Hv
     | intros (Hk & Hm & Hc & _); try discriminate Hk; try discriminate Hm ]).
  all: repeat match goal with
       | H : negb _ = true |- _ => apply negb_true_iff in H
       | H : negb _ = false |- _ => apply negb_false_iff in H
       | H : (_ =? _) = true |- _ => apply Z.eqb_eq in H
       | H : (_ =? _) = false |- _ => apply Z.eqb_neq in H
       end.
  all: try contradiction; try congruence.
  all: repeat split; eauto.
Qed.

(** X11.  The bounds of the status branches.  For a [CommandInvokeError]
    that wraps a [ResponseCodeError], with no local error handler: the
    internal-issue message is sent exactly for a status from 500 to 599
    (both included, 499 and 600 are not), the nothing-matching message
    exactly for 404, and a log line is emitted exactly for 400. *)
Theorem status_branch_bounds (ctx : Ctx) (e : Error) (r : Response) :
  kind e = CommandInvokeError ->
  original e = ResponseCodeError r ->
  hasattr_on_error (command ctx) = false ->
  (In (Send "Sorry, there seems to be an internal issue with the API.")
      (trace ctx e) <-> 500 <= status r <= 599) /\
  (In (Send "There does not seem to be anything matching your query.")
      (trace ctx e) <-> status r = 404) /\
  (count is_log (trace ctx e) = 1%nat <-> status r = 400).
Proof.
  intros Hk Horig Hhook. unfold_handler.
  destruct (help_command get_command ctx) as [help names].
  rewrite Hhook, Horig. known_kind Hk.
  cbv beta iota; cbn [fst snd st_ctx st_trace app].
  destruct (status r =? 404) eqn:E404;
    [apply Z.eqb_eq in E404 | apply Z.eqb_neq in E404];
    cbn [fst snd st_ctx st_trace app].
  2: destruct (status r =? 400) eqn:E400;
    [apply Z.eqb_eq in E400 | apply Z.eqb_neq in E400];
    cbn [fst snd st_ctx st_trace app].
  3: destruct ((500 <=? status r) && (status r <? 600)) eqn:E5xx;
    [ apply andb_true_iff in E5xx; destruct E5xx as [Hlo Hhi];
      apply Z.leb_le in Hlo; apply Z.ltb_lt in Hhi
    | apply andb_false_iff in E5xx;
      assert (Hout : ~ (500 <= status r <= 599))
        by (destruct E5xx as [Hlo | Hhi];
            [apply Z.leb_gt in Hlo | apply Z.ltb_ge in Hhi]; lia) ];
    cbn [fst snd st_ctx st_trace app].
  all: cbv [count List.filter is_log List.length]; cbn [In].
  all: (split; [split | split; split]); intros Hin;
    repeat match goal with
    | H : _ \/ _ |- _ => destruct H
    | H : False |- _ => destruct H
    end;
    try discriminate; try lia; try contradiction; auto.
Qed.

(** X12.  Log levels.  A warning is logged exactly for a
    [BotMissingPermissions] on a command with no local error handler; every
    other log line of the handler is at debug level. *)
Theorem warning_only_for_bot_missing_permissions (ctx : Ctx) (e : Error) :
  ((exists m, In (Log WARNING m) (trace ctx e)) <->
   kind e = BotMissingPermissions /\ hasattr_on_error (command ctx) = false) /\
  (forall level m, In (Log level m) (trace ctx e) ->
                   level = DEBUG \/ level = WARNING).
Proof.
  unfold_handler.
  destruct (help_command get_command ctx) as [help names].
  destruct (hasattr_on_error (command ctx)) eqn:Hhook.
  { cbn [fst snd st_ctx st_trace app In]. split; [split|].
    - intros [m [H | []]]. discriminate H.
    - intros [_ H]. discriminate H.
    - intros level m [H0 | []]. injection H0 as <- _. now left. }
  by_kind e; cbv beta iota; cbn [fst snd st_ctx st_trace app];
    repeat step; cbn [In]; (split; [split|]).
  all: try (intros [m Hin]);
       try (intros [Hk _]; try discriminate Hk);
       try (intros level m Hin).
  all: repeat match goal with
       | H : _ \/ _ |- _ => destruct H
       | H : False |- _ => destruct H
       end; try discriminate.
  all: try (split; reflexivity).
  all: try (eexists; left; reflexivity).
  all: try (eexists; right; left; reflexivity).
  all: try (match goal with H : Log _ _ = Log _ _ |- _ => injection H as <- _ end;
            auto).
Qed.

(** X13.  The handler invokes nothing but the help command and the tag
    lookup: every invocation of a run is either the command registered as
    [help], on the context as it is, with the names of the failed command
    and no keyword argument, for a [UserInputError]; or the command
    registered as [tags get], with [tag_name] set to the unresolved word and
    no positional argument, for a [CommandNotFound]. *)
Theorem only_help_and_tag_lookup_are_invoked (ctx c : Ctx) (e : Error)
    (cmd : option Command) (args : list string)
    (kwargs : list (string * string)) :
  In (Invoke c cmd args kwargs) (trace ctx e) ->
  (isinstance e UserInputError = true /\ c = ctx /\
   cmd = get_command "help" /\ args = help_names ctx /\ kwargs = []) \/
  (kind e = CommandNotFound /\
   c = set_invoked_from_error_handler ctx true /\
   cmd = get_command "tags get" /\ args = [] /\
   kwargs = [("tag_name", invoked_with ctx)]).
Proof.
  pose proof (help_command_target get_command ctx) as Htarget.
  unfold_handler.
  destruct (help_command get_command ctx) as [help names].
  cbn [fst snd] in *. subst help.
  destruct (hasattr_on_error (command ctx)) eqn:Hhook.
  { intros [H | []]. discriminate H. }
  by_kind e; cbv beta iota; cbn [fst snd st_ctx st_trace app];
    repeat step; cbn [In]; intros H;
    repeat match goal with
    | H : _ \/ _ |- _ => destruct H
    | H : False |- _ => destruct H
    end; try discriminate;
    match goal with
    | H : Invoke _ _ _ _ = Invoke _ _ _ _ |- _ =>
        injection H as <- <- <- <-
    end;
    first [left; repeat split; reflexivity | right; repeat split; reflexivity].
Qed.

End WholeTable.

(** ** Concrete runs of the other branches *)

Section BranchRuns.

Import Sample Cases.

#[local] Abbreviation run_trace := (trace get_command verification invoke_returns).
#[local] Abbreviation run_outcome := (outcome get_command verification invoke_returns).
#[local] Abbreviation failing_outcome := (outcome get_command verification invoke_api_404).
#[local] Abbreviation failing_trace := (trace get_command verification invoke_api_404).
#[local] Abbreviation failing_final := (final_ctx get_command verification invoke_api_404).

Lemma user_input_error_witness :
  isinstance e_missing_argument UserInputError = true /\
  isinstance e_missing_argument BadArgument = false /\
  hasattr_on_error (command faq_ctx) = false /\
  run_trace faq_ctx e_missing_argument =
    [Send "Something about your input seems off. Check the arguments:";
     Invoke faq_ctx (Some help) ["site"; "faq"] []].
Proof.
  refine (conj eq_refl (conj eq_refl (conj eq_refl _))).
  exact (proj1 (user_input_error_sends_hint_then_help
                  get_command verification invoke_returns faq_ctx
                  e_missing_argument eq_refl eq_refl eq_refl)).
Defined.

Lemma no_private_message_witness :
  kind e_no_private_message = NoPrivateMessage /\
  hasattr_on_error (command site_ctx) = false /\
  run_trace site_ctx e_no_private_message =
    [Send "Sorry, this command can't be used in a private message!"].
Proof.
  refine (conj eq_refl (conj eq_refl _)).
  exact (proj1 (proj2 (no_private_message_gets_a_notice
                         get_command verification invoke_returns site_ctx
                         e_no_private_message eq_refl eq_refl))).
Defined.

(** The API answers 404 to the help invocation: the error leaves the
    handler, which suppressed the same error in the tag lookup. *)
Lemma help_invocation_failure_witness :
  isinstance e_bad_argument UserInputError = true /\
  hasattr_on_error (command faq_ctx) = false /\
  invoke_api_404 faq_ctx (Some help) ["site"; "faq"] [] =
    Raises (RaisedException (ResponseCodeError not_found)) /\
  failing_outcome faq_ctx e_bad_argument =
    Raise (RaisedException (ResponseCodeError not_found)).
Proof.
  refine (conj eq_refl (conj eq_refl (conj eq_refl _))).
  exact (proj1 (proj1 (help_invocation_failure_propagates
                         get_command verification invoke_api_404 faq_ctx
                         e_bad_argument eq_refl eq_refl)
                  (RaisedException (ResponseCodeError not_found)) eq_refl)).
Defined.

Lemma user_missing_permissions_witness :
  kind e_user_missing = MissingPermissions /\
  hasattr_on_error (command faq_ctx) = false /\
  run_trace faq_ctx e_user_missing =
    [Log DEBUG
       "lemon#0001 is missing permissions to invoke command site faq: ['kick_members']"].
Proof.
  refine (conj eq_refl (conj eq_refl _)).
  exact (proj1 (user_missing_permissions_log_line
                  get_command verification invoke_returns faq_ctx
                  e_user_missing eq_refl eq_refl)).
Defined.

(** A class derived from [CheckFailure] is logged under its own name. *)
Lemma other_check_failures_witness :
  In (kind e_in_channel)
     [CheckFailure; NotOwner; CommandOnCooldown; DisabledCommand] /\
  hasattr_on_error (command site_ctx) = false /\
  run_trace site_ctx e_in_channel =
    [Log DEBUG
       "Command site invoked by lemon#0001 with error InChannelCheckFailure: Sorry, but you may only use this command within bot-commands."].
Proof.
  assert (Hk : In (kind e_in_channel)
                 [CheckFailure; NotOwner; CommandOnCooldown; DisabledCommand])
    by (left; reflexivity).
  refine (conj Hk (conj eq_refl _)).
  exact (proj1 (other_check_failures_log_line
                  get_command verification invoke_returns site_ctx
                  e_in_channel Hk eq_refl)).
Defined.

Lemma marked_context_witness :
  kind e_not_found = CommandNotFound /\
  kind e_second_not_found = CommandNotFound /\
  hasattr_invoked_from_error_handler unknown_ctx = false /\
  channel_id unknown_ctx <> verification /\
  hasattr_on_error (command unknown_ctx) = false /\
  failing_final unknown_ctx e_not_found = marked_ctx /\
  failing_trace (failing_final unknown_ctx e_not_found) e_second_not_found = [] /\
  failing_outcome (failing_final unknown_ctx e_not_found) e_second_not_found =
    Raise (RaisedError e_second_not_found).
Proof.
  assert (Hc : channel_id unknown_ctx <> verification)
    by (vm_compute; discriminate).
  refine (conj eq_refl (conj eq_refl (conj eq_refl (conj Hc (conj eq_refl
            (conj eq_refl _)))))).
  destruct (marked_context_is_not_looked_up_again
              get_command verification invoke_api_404 unknown_ctx
              e_not_found e_second_not_found
              eq_refl eq_refl eq_refl Hc eq_refl) as (Htrace & Hout & _).
  exact (conj Htrace Hout).
Defined.

Lemma status_branch_bounds_witness :
  kind e_api_503 = CommandInvokeError /\
  hasattr_on_error (command faq_ctx) = false /\
  In (Send "Sorry, there seems to be an internal issue with the API.")
     (run_trace faq_ctx e_api_503).
Proof.
  refine (conj eq_refl (conj eq_refl _)).
  assert (Hin : 500 <= 503 <= 599) by lia.
  exact (proj2 (proj1 (status_branch_bounds
                         get_command verification invoke_returns faq_ctx
                         e_api_503 _ eq_refl eq_refl eq_refl)) Hin).
Defined.

Lemma only_help_and_tag_lookup_witness :
  In (Invoke faq_ctx (Some help) ["site"; "faq"] [])
     (run_trace faq_ctx e_bad_argument) /\
  ((isinstance e_bad_argument UserInputError = true /\ faq_ctx = faq_ctx /\
    Some help = get_command "help" /\
    ["site"; "faq"] = snd (help_command get_command faq_ctx) /\
    @nil (string * string) = []) \/
   (kind e_bad_argument = CommandNotFound /\
    faq_ctx = set_invoked_from_error_handler faq_ctx true /\
    Some help = get_command "tags get" /\ ["site"; "faq"] = [] /\
    [] = [("tag_name", invoked_with faq_ctx)])).
Proof.
  assert (Hin : In (Invoke faq_ctx (Some help) ["site"; "faq"] [])
                  (run_trace faq_ctx e_bad_argument))
    by (right; left; reflexivity).
  refine (conj Hin _).
  exact (only_help_and_tag_lookup_are_invoked
           get_command verification invoke_returns faq_ctx faq_ctx
           e_bad_argument (Some help) ["site"; "faq"] [] Hin).
Defined.

End BranchRuns.
